(** * Maple: the Python tokenizer fixture [test-python.py]

    The repository's only source file is a small Python program: a
    [Calculator] class with a constructor, an instance method [add] and a
    static method [multiply], and a function [main] that binds one literal
    of every kind, sums a list, prints two lines and returns the
    calculator.

    The program is embedded shallowly.  Python values are an inductive
    type; integers are [Z]; floats are IEEE-754 binary64 numbers in the
    Standard Library's [spec_float] (no primitive floats, no axioms);
    objects live in a heap of attribute dictionaries; functions are
    computations in a state-and-exception monad over the heap, the module
    globals and the standard output.

    The names [Calculator], [sum] and [print] that [main] uses denote
    what the module and the built-ins bind them to: calls are direct, as
    nothing in the file rebinds a name. *)

From Stdlib Require Import ZArith QArith Qabs Qpower String Ascii List Bool Lia.
From Stdlib Require Import Floats.SpecFloat DecimalString DecimalPos DecimalZ Strings.Byte.
From stdpp Require Import gmap strings.

Local Open Scope string_scope.
Local Open Scope Z_scope.

#[local] Set Warnings "-register-all".

(** ** IEEE-754 binary64, the format of Python's [float] *)

Module Float64.

Definition prec : Z := 53.
Definition emax : Z := 1024.

Definition add : spec_float -> spec_float -> spec_float := SFadd prec emax.
Definition mul : spec_float -> spec_float -> spec_float := SFmul prec emax.
Definition div : spec_float -> spec_float -> spec_float := SFdiv prec emax.

(** A float the format really contains: canonical mantissa, exponent in
    range. *)
Definition valid (f : spec_float) : bool := valid_binary prec emax f.

(** The integer [n] rounded to the nearest float, ties to even; an
    integer beyond the largest float rounds to an infinity. *)
Definition of_Z (n : Z) : spec_float := binary_normalize prec emax n 0 false.

Definition zero : spec_float := S754_zero false.

Definition is_zero (f : spec_float) : bool :=
  match f with S754_zero _ => true | _ => false end.

(** The decimal literal [m]e[-k], that is m / 10^k, correctly rounded:
    one division of two floats that hold [m] and [10^k] exactly (both
    below 2^53, which covers the literals of this file). *)
Definition of_decimal (m : Z) (k : Z) : spec_float :=
  div (of_Z m) (of_Z (10 ^ k)).

(** The rational number a finite float stands for. *)
Definition exact (f : spec_float) : option Q :=
  match f with
  | S754_zero _ => Some 0%Q
  | S754_finite s m e =>
      Some (Qred (inject_Z (if s then Z.neg m else Z.pos m) * Qpower 2 e))%Q
  | S754_infinity _ | S754_nan => None
  end.

End Float64.

(** ** Values *)

(** Heap addresses of objects. *)
Definition loc : Type := positive.

Inductive value : Type :=
| VNone
| VBool (b : bool)
| VInt (n : Z)
| VFloat (f : spec_float)
| VComplex (re im : spec_float)
| VStr (s : string)
| VBytes (bs : list Byte.byte)
| VList (items : list value)
| VRef (l : loc)              (* an instance of a class of this file *)
| VOpaque (name : string).    (* a module, class or function object; only stored *)

(** The exceptions the operations of this file can raise. *)
Inductive exn : Type :=
| TypeError
| ZeroDivisionError
| OverflowError
| AttributeError.

(** What evaluating an expression gives: a value, a raised exception, or
    [Unmodelled] where Python is defined but this development does not
    follow it (float formatting, sequence repetition, ...).  No theorem
    below concludes anything from [Unmodelled]. *)
Inductive outcome (A : Type) : Type :=
| Ok (a : A)
| Raise (e : exn)
| Unmodelled.

Arguments Ok {A} a.
Arguments Raise {A} e.
Arguments Unmodelled {A}.

Definition obind {A B : Type} (m : outcome A) (k : A -> outcome B) : outcome B :=
  match m with
  | Ok a => k a
  | Raise e => Raise e
  | Unmodelled => Unmodelled
  end.

Notation "'let?' x := m 'in' k" := (obind m (fun x => k))
  (at level 10, x name, m at level 100, k at level 200).

(** ** The numeric tower *)

Inductive num : Type :=
| NInt (n : Z)
| NFloat (f : spec_float)
| NComplex (re im : spec_float).

(** [bool] is a subclass of [int]: [True] is 1 and [False] is 0. *)
Definition as_num (v : value) : option num :=
  match v with
  | VBool b => Some (NInt (Z.b2z b))
  | VInt n => Some (NInt n)
  | VFloat f => Some (NFloat f)
  | VComplex re im => Some (NComplex re im)
  | _ => None
  end.

(** int -> float, as [float.__add__] and friends convert an [int] operand:
    correctly rounded, and OverflowError ("int too large to convert to
    float") when the result is not finite. *)
Definition to_float (n : Z) : outcome spec_float :=
  match Float64.of_Z n with
  | S754_infinity _ => Raise OverflowError
  | f => Ok f
  end.

Definition to_complex (a : num) : outcome (spec_float * spec_float) :=
  match a with
  | NInt n => let? f := to_float n in Ok (f, Float64.zero)
  | NFloat f => Ok (f, Float64.zero)
  | NComplex re im => Ok (re, im)
  end.

Definition is_opaque (v : value) : bool :=
  match v with VOpaque _ => true | _ => false end.

(** ** Binary operators *)

(** [x + y].  Numbers are added in the widest of the two types; [str],
    [bytes] and [list] concatenate with their own kind; a real operand of
    a complex sum is first made a complex number with imaginary part 0.0
    (CPython up to 3.13). *)
Definition binop_add (x y : value) : outcome value :=
  match as_num x, as_num y with
  | Some (NInt a), Some (NInt b) => Ok (VInt (a + b))
  | Some (NInt a), Some (NFloat g) =>
      let? f := to_float a in Ok (VFloat (Float64.add f g))
  | Some (NFloat f), Some (NInt b) =>
      let? g := to_float b in Ok (VFloat (Float64.add f g))
  | Some (NFloat f), Some (NFloat g) => Ok (VFloat (Float64.add f g))
  | Some a, Some b =>
      let? p := to_complex a in
      let? q := to_complex b in
      Ok (VComplex (Float64.add (fst p) (fst q)) (Float64.add (snd p) (snd q)))
  | _, _ =>
      match x, y with
      | VStr s, VStr t => Ok (VStr (s +:+ t))
      | VBytes s, VBytes t => Ok (VBytes (s ++ t))
      | VList s, VList t => Ok (VList (s ++ t))
      | _, _ => if is_opaque x || is_opaque y then Unmodelled else Raise TypeError
      end
  end.

Definition is_sequence (v : value) : bool :=
  match v with VStr _ | VBytes _ | VList _ => true | _ => false end.

Definition is_int (v : value) : bool :=
  match v with VBool _ | VInt _ => true | _ => false end.

(** [a * b].  Integers multiply exactly, floats in binary64, an [int]
    meeting a [float] is converted first.  Complex products and the
    repetition of a sequence by an integer are not followed. *)
Definition binop_mul (x y : value) : outcome value :=
  match as_num x, as_num y with
  | Some (NInt a), Some (NInt b) => Ok (VInt (a * b))
  | Some (NInt a), Some (NFloat g) =>
      let? f := to_float a in Ok (VFloat (Float64.mul f g))
  | Some (NFloat f), Some (NInt b) =>
      let? g := to_float b in Ok (VFloat (Float64.mul f g))
  | Some (NFloat f), Some (NFloat g) => Ok (VFloat (Float64.mul f g))
  | Some _, Some _ => Unmodelled
  | _, _ =>
      if is_opaque x || is_opaque y then Unmodelled
      else if (is_sequence x && is_int y) || (is_int x && is_sequence y) then Unmodelled
      else Raise TypeError
  end.

(** [x ** y] on integers: exact for an exponent >= 0; a negative exponent
    gives a float (not followed), except that 0 cannot be raised to it. *)
Definition binop_pow (x y : value) : outcome value :=
  match as_num x, as_num y with
  | Some (NInt a), Some (NInt b) =>
      if 0 <=? b then Ok (VInt (a ^ b))
      else if a =? 0 then Raise ZeroDivisionError
      else Unmodelled
  | Some _, Some _ => Unmodelled
  | _, _ => if is_opaque x || is_opaque y then Unmodelled else Raise TypeError
  end.

(** [x // y] on integers: the quotient rounded towards minus infinity
    ([Z.div] rounds the same way); ZeroDivisionError for a zero divisor.
    Complex numbers have no floor division; float floor division is not
    followed. *)
Definition binop_floordiv (x y : value) : outcome value :=
  match as_num x, as_num y with
  | Some (NInt a), Some (NInt b) =>
      if b =? 0 then Raise ZeroDivisionError else Ok (VInt (a / b))
  | Some (NComplex _ _), Some _ | Some _, Some (NComplex _ _) => Raise TypeError
  | Some _, Some _ => Unmodelled
  | _, _ => if is_opaque x || is_opaque y then Unmodelled else Raise TypeError
  end.

(** [x < y].  Integers and floats are ordered within their own type
    (a comparison with NaN is false); complex numbers are not ordered;
    mixed int/float and sequence comparisons are not followed. *)
Definition binop_lt (x y : value) : outcome value :=
  match as_num x, as_num y with
  | Some (NInt a), Some (NInt b) => Ok (VBool (a <? b))
  | Some (NFloat f), Some (NFloat g) => Ok (VBool (SFltb f g))
  | Some (NComplex _ _), Some _ | Some _, Some (NComplex _ _) => Raise TypeError
  | Some _, Some _ => Unmodelled
  | _, _ =>
      match x, y with
      | VStr _, VStr _ | VBytes _, VBytes _ | VList _, VList _ => Unmodelled
      | _, _ => if is_opaque x || is_opaque y then Unmodelled else Raise TypeError
      end
  end.

(** [x > y] is answered by [y < x] for every type followed here. *)
Definition binop_gt (x y : value) : outcome value := binop_lt y x.

(** Truth value of an object, as [if] and [and] test it. *)
Definition truthy (v : value) : bool :=
  match v with
  | VNone => false
  | VBool b => b
  | VInt n => negb (n =? 0)
  | VFloat f => negb (Float64.is_zero f)
  | VComplex re im => negb (Float64.is_zero re && Float64.is_zero im)
  | VStr s => negb (String.eqb s "")
  | VBytes bs => match bs with [] => false | _ => true end
  | VList items => match items with [] => false | _ => true end
  | VRef _ => true
  | VOpaque _ => true
  end.

(** ** Program state and the monad of computations *)

(** The heap maps an address to the instance dictionary of the object
    there; the only class that is instantiated is [Calculator].  The
    module globals and the text written to standard output complete the
    state. *)
Record state : Type := State {
  heap : gmap loc (gmap string value);
  globals : gmap string value;
  stdout : string
}.

(** A computation runs from a state to an outcome and the state it
    leaves; an exception keeps what was done before it was raised. *)
Definition M (A : Type) : Type := state -> outcome A * state.

#[global] Instance outcome_ret : MRet outcome := fun A a => Ok a.
#[global] Instance outcome_bind : MBind outcome := fun A B k m => obind m k.

#[global] Instance M_ret : MRet M := fun A a st => (Ok a, st).
#[global] Instance M_bind : MBind M := fun A B k m st =>
  match m st with
  | (Ok a, st') => k a st'
  | (Raise e, st') => (Raise e, st')
  | (Unmodelled, st') => (Unmodelled, st')
  end.

Definition lift {A : Type} (o : outcome A) : M A := fun st => (o, st).

Definition raise {A : Type} (e : exn) : M A := lift (Raise e).

Definition fresh_loc (h : gmap loc (gmap string value)) : loc := fresh (dom h).

(** [object.__new__]: a new object with an empty dictionary. *)
Definition alloc : M value := fun st =>
  let l := fresh_loc (heap st) in
  (Ok (VRef l),
   {| heap := <[l := ∅]> (heap st); globals := globals st; stdout := stdout st |}).

(** [obj.attr = v].  The built-in values accept no new attribute; an
    address always has an object behind it. *)
Definition setattr (obj : value) (attr : string) (v : value) : M unit := fun st =>
  match obj with
  | VRef l =>
      match heap st !! l with
      | Some d =>
          (Ok tt,
           {| heap := <[l := <[attr := v]> d]> (heap st);
              globals := globals st; stdout := stdout st |})
      | None => (Unmodelled, st)
      end
  | VOpaque _ => (Unmodelled, st)
  | _ => (Raise AttributeError, st)
  end.

(** A module-level assignment [name = v]. *)
Definition set_global (name : string) (v : value) : M unit := fun st =>
  (Ok tt,
   {| heap := heap st; globals := <[name := v]> (globals st); stdout := stdout st |}).

Definition write (s : string) : M unit := fun st =>
  (Ok tt, {| heap := heap st; globals := globals st; stdout := stdout st +:+ s |}).

(** ** Strings of values *)

Definition newline : string := String (ascii_of_nat 10) EmptyString.

Definition string_of_Z (n : Z) : string := NilZero.string_of_int (Z.to_int n).

(** [str(v)], which is also [format(v, '')], for the values whose text
    does not depend on float printing or on an address.  The decimal text
    of an integer is limited to 4300 digits in current CPython. *)
Definition py_str (v : value) : outcome string :=
  match v with
  | VNone => Ok "None"
  | VBool b => Ok (if b then "True" else "False")
  | VInt n =>
      if (String.length (string_of_Z (Z.abs n)) <=? 4300)%nat
      then Ok (string_of_Z n) else Unmodelled
  | VStr s => Ok s
  | _ => Unmodelled
  end.

(** An f-string is a sequence of literal text and replacement fields. *)
Inductive fpart : Type :=
| FText (s : string)
| FExpr (v : value).

Fixpoint fstring (parts : list fpart) : outcome string :=
  match parts with
  | [] => Ok ""
  | FText s :: rest => r ← fstring rest; Ok (s +:+ r)
  | FExpr v :: rest => s ← py_str v; r ← fstring rest; Ok (s +:+ r)
  end.

(** An integer literal written in base [base], most significant digit
    first: 0b1010 is [int_literal 2 [1; 0; 1; 0]]. *)
Definition int_literal (base : Z) (digits : list Z) : Z :=
  fold_left (fun acc d => acc * base + d) digits 0.

(** ** Built-in functions *)

Module builtins.

Definition iterate (v : value) : outcome (list value) :=
  match v with
  | VList items => Ok items
  | VStr _ | VBytes _ | VOpaque _ => Unmodelled
  | _ => Raise TypeError
  end.

Definition is_inexact (v : value) : bool :=
  match v with VFloat _ | VComplex _ _ => true | _ => false end.

(** [sum] adds the items to the start value 0 from left to right with
    [+].  Sums that involve floats are not followed (CPython 3.12
    compensates them). *)
Fixpoint sum_from (acc : value) (items : list value) : outcome value :=
  match items with
  | [] => Ok acc
  | v :: rest =>
      if is_inexact acc || is_inexact v then Unmodelled
      else acc' ← binop_add acc v; sum_from acc' rest
  end.

Definition sum (iterable : value) : outcome value :=
  items ← iterate iterable; sum_from (VInt 0) items.

(** [print(v)] writes [str(v)] and a newline to standard output. *)
Definition print (v : value) : M value :=
  s ← lift (py_str v);
  write (s +:+ newline);;
  mret VNone.

End builtins.

(** [a and b]: [b] is evaluated only when [a] is true. *)
Definition py_and (a b : M value) : M value :=
  v ← a; if truthy v then b else mret v.

(** ** class Calculator *)

Module Calculator.

Definition __init__ (self name : value) : M value :=
  setattr self "name" name;;
  setattr self "value" (VInt 0);;
  mret VNone.

Definition add (self x y : value) : M value :=
  lift (binop_add x y).

Definition multiply (a b : value) : M value :=
  result ← lift (binop_mul a b);
  mret result.

End Calculator.

(** How a function is stored in a class: an instance method receives the
    object as its first argument, a static method does not. *)
Inductive method : Type :=
| InstanceMethod (f : list value -> M value)
| StaticMethod (f : list value -> M value).

(** Binding the positional arguments of a call to the parameters of a
    function: a wrong number of arguments is a TypeError. *)
Definition params2 (f : value -> value -> M value) (args : list value) : M value :=
  match args with
  | [a; b] => f a b
  | _ => raise TypeError
  end.

Definition params3 (f : value -> value -> value -> M value) (args : list value) : M value :=
  match args with
  | [a; b; c] => f a b c
  | _ => raise TypeError
  end.

Definition Calculator_methods : list (string * method) :=
  [ ("__init__", InstanceMethod (params2 Calculator.__init__));
    ("add", InstanceMethod (params3 Calculator.add));
    ("multiply", StaticMethod (params2 Calculator.multiply)) ].

Fixpoint lookup_method (table : list (string * method)) (name : string) : option method :=
  match table with
  | [] => None
  | (n, m) :: rest => if String.eqb n name then Some m else lookup_method rest name
  end.

(** [Calculator(args)]: a new object, initialised by [__init__]. *)
Definition Calculator_new (args : list value) : M value :=
  self ← alloc;
  params2 Calculator.__init__ (self :: args);;
  mret self.

(** [obj.name(args)].  An entry of the instance dictionary would hide the
    class's function; names the class does not define may come from
    [object]; neither is followed. *)
Definition call_method (obj : value) (name : string) (args : list value) : M value :=
  fun st =>
    match obj with
    | VRef l =>
        match heap st !! l with
        | Some d =>
            match d !! name, lookup_method Calculator_methods name with
            | None, Some (InstanceMethod f) => f (obj :: args) st
            | None, Some (StaticMethod f) => f args st
            | _, _ => (Unmodelled, st)
            end
        | None => (Unmodelled, st)
        end
    | _ => (Unmodelled, st)
    end.

(** ** def main() *)

Module Main.

(** The local variables of [main] when it returns. *)
Record locals : Type := Locals {
  calc : value;
  message : value;
  formatted : value;
  raw_string : value;
  byte_string : value;
  decimal : value;
  floating : value;
  hex_num : value;
  binary : value;
  octal : value;
  complex_num : value;
  numbers : value;
  total : value;
  x : value;
  y : value;
  z : value
}.

(** The condition of the [if]: [x > 5 and y < 200]. *)
Definition condition (x y : value) : M value :=
  py_and (lift (binop_gt x (VInt 5))) (lift (binop_lt y (VInt 200))).

Definition body : M locals :=
  calc ← Calculator_new [VStr "MyCalc"];
  (* String tests *)
  let message := VStr "Hello, World!" in
  r ← call_method calc "add" [VInt 5; VInt 3];
  s ← lift (fstring [FText "The result is: "; FExpr r]);
  let formatted := VStr s in
  let raw_string := VStr "C:\Users\path" in
  let byte_string := VBytes (list_byte_of_string "bytes") in
  (* Number tests *)
  let decimal := VInt 42 in
  let floating := VFloat (Float64.of_decimal 314 2) in
  let hex_num := VInt (int_literal 16 [15; 15]) in
  let binary := VInt (int_literal 2 [1; 0; 1; 0]) in
  let octal := VInt (int_literal 8 [7; 5; 5]) in
  complex_num ← lift (binop_add (VInt 3) (VComplex Float64.zero (Float64.of_Z 4)));
  (* Built-in functions *)
  let numbers := VList [VInt 1; VInt 2; VInt 3; VInt 4; VInt 5] in
  total ← lift (builtins.sum numbers);
  s ← lift (fstring [FText "Total: "; FExpr total]);
  builtins.print (VStr s);;
  (* Operators *)
  let x := VInt 10 in
  y ← lift (binop_pow x (VInt 2));
  z ← lift (binop_floordiv y (VInt 3));
  c ← condition x y;
  (if truthy c then builtins.print (VStr "Condition met") else mret VNone);;
  mret {| calc := calc; message := message; formatted := formatted;
          raw_string := raw_string; byte_string := byte_string;
          decimal := decimal; floating := floating; hex_num := hex_num;
          binary := binary; octal := octal; complex_num := complex_num;
          numbers := numbers; total := total; x := x; y := y; z := z |}.

End Main.

(** [main] returns [calc]. *)
Definition main : M value :=
  frame ← Main.body;
  mret (Main.calc frame).

(** ** The module *)

Definition module_doc : string :=
  newline +:+ "This is a module docstring" +:+ newline
          +:+ "with multiple lines" +:+ newline.

(** Running the file under the module name [__name__]: the imports, the
    two constants, the class and the function are bound in order, and the
    file calls [main] when it is run as a script. *)
Definition module_body (__name__ : string) : M unit :=
  set_global "__doc__" (VStr module_doc);;
  set_global "os" (VOpaque "os");;
  set_global "List" (VOpaque "typing.List");;
  set_global "Optional" (VOpaque "typing.Optional");;
  set_global "DEBUG" (VBool true);;
  set_global "MAX_SIZE" (VInt 100);;
  set_global "Calculator" (VOpaque "Calculator");;
  set_global "main" (VOpaque "main");;
  if String.eqb __name__ "__main__" then main;; mret tt else mret tt.

Definition initial_state : state :=
  {| heap := ∅; globals := ∅; stdout := "" |}.

(** ** Vocabulary of the statements *)

(** The instance dictionary [__init__] leaves behind. *)
Definition calculator_dict (name : value) : gmap string value :=
  <["value" := VInt 0]> (<["name" := name]> ∅).

Definition with_heap (h : gmap loc (gmap string value)) (st : state) : state :=
  {| heap := h; globals := globals st; stdout := stdout st |}.

(** The two lines [main] prints. *)
Definition main_output : string :=
  "Total: 15" +:+ newline +:+ "Condition met" +:+ newline.

(** The state a call of [main] leaves: one more calculator in the heap,
    two more lines on standard output. *)
Definition after_main (st : state) : state :=
  {| heap := <[fresh_loc (heap st) := calculator_dict (VStr "MyCalc")]> (heap st);
     globals := globals st;
     stdout := stdout st +:+ main_output |}.

(** The local variables of [main] at its [return], for the calculator at
    address [l]. *)
Definition main_locals (l : loc) : Main.locals :=
  {| Main.calc := VRef l;
     Main.message := VStr "Hello, World!";
     Main.formatted := VStr "The result is: 8";
     Main.raw_string := VStr "C:\Users\path";
     Main.byte_string := VBytes [x62; x79; x74; x65; x73]%byte;
     Main.decimal := VInt 42;
     Main.floating := VFloat (S754_finite false 7070651414971679 (-51));
     Main.hex_num := VInt 255;
     Main.binary := VInt 10;
     Main.octal := VInt 493;
     Main.complex_num := VComplex (Float64.of_Z 3) (Float64.of_Z 4);
     Main.numbers := VList [VInt 1; VInt 2; VInt 3; VInt 4; VInt 5];
     Main.total := VInt 15;
     Main.x := VInt 10;
     Main.y := VInt 100;
     Main.z := VInt 33 |}.

(** The number an [int] or a finite [float] stands for. *)
Definition exact_value (v : value) : option Q :=
  match v with
  | VInt n => Some (inject_Z n)
  | VFloat f => Float64.exact f
  | _ => None
  end.

(** The numbers [multiply] is annotated for: a [float], or an [int] in
    its place. *)
Definition is_number (v : value) : bool :=
  match v with
  | VInt _ => true
  | VFloat f => Float64.valid f
  | _ => false
  end.

(** The functions the file defines, and a call of one of them with
    positional arguments. *)
Inductive function : Type :=
| F_init
| F_add
| F_multiply
| F_main.

Definition invoke (f : function) (args : list value) : M value :=
  match f with
  | F_init => params2 Calculator.__init__ args
  | F_add => params3 Calculator.add args
  | F_multiply => params2 Calculator.multiply args
  | F_main => match args with [] => main | _ => raise TypeError end
  end.

(** The state with the two module constants rebound. *)
Definition with_constants (debug max_size : value) (st : state) : state :=
  {| heap := heap st;
     globals := <["DEBUG" := debug]> (<["MAX_SIZE" := max_size]> (globals st));
     stdout := stdout st |}.

(** The method calls a client can make on a calculator, with any
    arguments, and the state a sequence of them leaves (a call that
    raises is survived, as under [try]). *)
Inductive op : Type :=
| OpAdd (args : list value)
| OpMultiply (args : list value).

Definition run_op (self : value) (o : op) : M value :=
  match o with
  | OpAdd args => call_method self "add" args
  | OpMultiply args => call_method self "multiply" args
  end.

Fixpoint run_ops (self : value) (ops : list op) (st : state) : state :=
  match ops with
  | [] => st
  | o :: rest => run_ops self rest (snd (run_op self o st))
  end.

(** * Properties *)

(** ** binary64 multiplication *)

Lemma float_mul_comm (a b : spec_float) : Float64.mul a b = Float64.mul b a.
Proof.
  unfold Float64.mul.
  destruct a as [sa|sa| |sa ma ea], b as [sb|sb| |sb mb eb]; cbn [SFmul];
    rewrite ?(xorb_comm sb sa), ?(Pos.mul_comm mb ma), ?(Z.add_comm eb ea);
    reflexivity.
Qed.

(** Appending [k] zero bits to a mantissa adds [k] to its bit length. *)
Lemma digits2_shift (m k : positive) :
  Z.pos (digits2_pos (Pos.iter xO m k)) = Z.pos (digits2_pos m) + Z.pos k.
Proof.
  revert m. induction k as [|k IH] using Pos.peano_ind; intros m.
  - cbn. lia.
  - rewrite Pos.iter_succ. cbn [digits2_pos]. rewrite Pos2Z.inj_succ, IH. lia.
Qed.

(** Shifting out the 52 zero bits again loses nothing. *)
Lemma shr_shift52 (m : positive) :
  SpecFloat.iter_pos shr_1 52 (Build_shr_record (Z.pos (Pos.iter xO m 52)) false false)
  = Build_shr_record (Z.pos m) false false.
Proof. reflexivity. Qed.

Lemma float_one : Float64.of_Z 1 = S754_finite false 4503599627370496 (-52).
Proof. reflexivity. Qed.

(** 1.0 is a right unit of the multiplication of valid floats: the
    product has the mantissa of [a] followed by 52 zero bits, and
    rounding it to 53 bits is exact. *)
Lemma float_mul_one (a : spec_float) :
  Float64.valid a = true -> Float64.mul a (Float64.of_Z 1) = a.
Proof.
  destruct a as [s|s| |s m e]; intros Hv;
    [ destruct s; reflexivity | destruct s; reflexivity | reflexivity | ].
  unfold Float64.valid, valid_binary, bounded, canonical_mantissa in Hv.
  apply andb_prop in Hv as [Hc Hb]. apply Z.eqb_eq in Hc.
  rewrite float_one. unfold Float64.mul, SFmul.
  rewrite xorb_false_r, Pos.mul_comm.
  change (4503599627370496 * m)%positive with (Pos.iter xO m 52).
  unfold binary_round_aux. unfold shr_fexp at 1. cbn [Zdigits2].
  rewrite digits2_shift.
  replace (Z.pos (digits2_pos m) + 52 + (e + -52))
    with (Z.pos (digits2_pos m) + e) by lia.
  rewrite Hc. replace (e - (e + -52)) with 52 by lia.
  cbn [shr_record_of_loc shr]. rewrite shr_shift52.
  cbn [shr_m loc_of_shr_record round_nearest_even].
  unfold shr_fexp. cbn [Zdigits2].
  replace (e + -52 + 52) with e by lia.
  rewrite Hc, Z.sub_diag. cbn [shr shr_record_of_loc shr_m].
  rewrite Hb. reflexivity.
Qed.


(** The float of the literal 3.14 is within half a unit in the last place
    (2^-52 at this magnitude) of 314/100. *)
Lemma floating_nearest :
  Float64.of_decimal 314 2 = S754_finite false 7070651414971679 (-51) /\
  Float64.valid (Float64.of_decimal 314 2) = true /\
  exists q, Float64.exact (Float64.of_decimal 314 2) = Some q /\
            (Qabs (q - (314 # 100)) <= 1 # 4503599627370496)%Q.
Proof.
  split; [reflexivity | split; [reflexivity | ]].
  eexists. split; [vm_compute; reflexivity | ].
  apply Qle_bool_iff. vm_compute. reflexivity.
Qed.

(** ** Running computations *)

Lemma bind_ok {A B : Type} (m : M A) (k : A -> M B) (st st' : state) (a : A) :
  m st = (Ok a, st') -> (m ≫= k) st = k a st'.
Proof. intros H. unfold mbind, M_bind. rewrite H. reflexivity. Qed.

Lemma bind_lift {A B : Type} (o : outcome A) (k : A -> M B) (st : state) :
  (lift o ≫= k) st =
  match o with
  | Ok a => k a st
  | Raise e => (Raise e, st)
  | Unmodelled => (Unmodelled, st)
  end.
Proof. reflexivity. Qed.

Lemma append_assoc (s t u : string) : (s +:+ t) +:+ u = s +:+ t +:+ u.
Proof.
  induction s as [|c s IH]; [reflexivity|].
  change (String c ((s +:+ t) +:+ u) = String c (s +:+ t +:+ u)).
  now rewrite IH.
Qed.

Lemma print_str (s : string) (st : state) :
  builtins.print (VStr s) st =
  (Ok VNone,
   {| heap := heap st; globals := globals st; stdout := stdout st +:+ s +:+ newline |}).
Proof. reflexivity. Qed.

(** Evaluate the closed expression at the head of a computation. *)
Ltac run_lift :=
  rewrite bind_lift;
  match goal with
  | |- match ?o with _ => _ end = _ =>
      let v := eval vm_compute in o in change o with v; cbv beta iota
  end.

(** ** The constructor *)

Lemma init_run (self name : value) (st : state) :
  Calculator.__init__ self name st =
  match self with
  | VRef l =>
      match heap st !! l with
      | Some d =>
          (Ok VNone,
           with_heap (<[l := <["value" := VInt 0]> (<["name" := name]> d)]> (heap st)) st)
      | None => (Unmodelled, st)
      end
  | VOpaque _ => (Unmodelled, st)
  | _ => (Raise AttributeError, st)
  end.
Proof.
  unfold Calculator.__init__, setattr, with_heap, mbind, M_bind, mret, M_ret.
  destruct self; try reflexivity.
  destruct (heap st !! l) as [d|] eqn:Hl; [|reflexivity].
  cbn [heap globals stdout]. rewrite lookup_insert_eq, insert_insert_eq.
  reflexivity.
Qed.

Lemma Calculator_new_run (name : value) (st : state) :
  Calculator_new [name] st =
  (Ok (VRef (fresh_loc (heap st))),
   with_heap (<[fresh_loc (heap st) := calculator_dict name]> (heap st)) st).
Proof.
  unfold Calculator_new, params2. unfold mbind at 1, M_bind at 1.
  unfold alloc at 1. unfold mbind, M_bind. rewrite init_run.
  cbn [heap globals stdout]. rewrite lookup_insert_eq.
  unfold with_heap. cbn [heap globals stdout]. rewrite insert_insert_eq.
  reflexivity.
Qed.

Lemma fresh_loc_free (h : gmap loc (gmap string value)) : h !! fresh_loc h = None.
Proof. unfold fresh_loc, loc. apply (not_elem_of_dom (D := gset positive)), is_fresh. Qed.

Lemma calculator_dict_name (name : value) : calculator_dict name !! "name" = Some name.
Proof. reflexivity. Qed.

Lemma calculator_dict_value (name : value) : calculator_dict name !! "value" = Some (VInt 0).
Proof. reflexivity. Qed.

(** ** Method calls *)

Lemma call_method_add (l : loc) (d : gmap string value) (x y : value) (st : state) :
  heap st !! l = Some d -> d !! "add" = None ->
  call_method (VRef l) "add" [x; y] st = (binop_add x y, st).
Proof. intros Hl Hd. unfold call_method. rewrite Hl, Hd. reflexivity. Qed.

Lemma multiply_run (a b : value) (st : state) :
  Calculator.multiply a b st = (binop_mul a b, st).
Proof.
  unfold Calculator.multiply. rewrite bind_lift. destruct (binop_mul a b); reflexivity.
Qed.

Lemma lookup_add :
  lookup_method Calculator_methods "add" = Some (InstanceMethod (params3 Calculator.add)).
Proof. reflexivity. Qed.

Lemma lookup_multiply :
  lookup_method Calculator_methods "multiply"
  = Some (StaticMethod (params2 Calculator.multiply)).
Proof. reflexivity. Qed.

(** Neither method touches the state, whatever it is called on and
    whatever it is given. *)
Lemma run_op_state (self : value) (o : op) (st : state) :
  snd (run_op self o st) = st.
Proof.
  destruct o as [args|args]; unfold run_op, call_method;
    (destruct self; try reflexivity);
    (destruct (heap st !! l) as [d|]; [|reflexivity]).
  - destruct (d !! "add"); [reflexivity|]. rewrite lookup_add.
    unfold params3. destruct args as [|x [|y [|z rest]]]; reflexivity.
  - destruct (d !! "multiply"); [reflexivity|]. rewrite lookup_multiply.
    unfold params2. destruct args as [|a [|b [|c rest]]]; try reflexivity.
    rewrite multiply_run. reflexivity.
Qed.

(** ** main *)

Lemma condition_run (st : state) :
  Main.condition (VInt 10) (VInt 100) st = (Ok (VBool true), st).
Proof. reflexivity. Qed.

Lemma body_run (st : state) :
  Main.body st = (Ok (main_locals (fresh_loc (heap st))), after_main st).
Proof.
  unfold Main.body.
  rewrite (bind_ok _ _ _ _ _ (Calculator_new_run _ _)).
  unfold mbind at 1, M_bind at 1.
  rewrite (call_method_add _ (calculator_dict (VStr "MyCalc")));
    [ | apply lookup_insert_eq | reflexivity ].
  change (binop_add (VInt 5) (VInt 3)) with (Ok (VInt 8)); cbv beta iota.
  do 4 run_lift.
  unfold mbind at 1, M_bind at 1; rewrite print_str.
  do 2 run_lift.
  unfold mbind at 1, M_bind at 1; rewrite condition_run.
  change (truthy (VBool true)) with true; cbv beta iota.
  unfold mbind at 1, M_bind at 1; rewrite print_str.
  unfold mret, M_ret, after_main, with_heap, main_output.
  cbn [heap globals stdout]. rewrite append_assoc.
  reflexivity.
Qed.

Lemma main_run (st : state) :
  main st = (Ok (VRef (fresh_loc (heap st))), after_main st).
Proof. unfold main. rewrite (bind_ok _ _ _ _ _ (body_run st)). reflexivity. Qed.

Lemma module_run (st : state) :
  exists st', module_body "__main__" st = (Ok tt, st') /\ stdout st' = stdout st +:+ main_output.
Proof.
  unfold module_body.
  repeat (unfold mbind at 1, M_bind at 1; unfold set_global at 1; cbv beta iota).
  change (String.eqb "__main__" "__main__") with true. cbv beta iota.
  unfold mbind, M_bind. rewrite main_run. eexists. split; reflexivity.
Qed.

(** ** The module constants *)

(** No function of the file reads a global: rebinding the two constants
    before a call changes neither its outcome nor what it does to the
    heap and to standard output, and the call leaves them as rebound. *)
Lemma invoke_constants (f : function) (args : list value) (d m : value) (st : state) :
  invoke f args (with_constants d m st)
  = (fst (invoke f args st), with_constants d m (snd (invoke f args st))).
Proof.
  destruct f; unfold invoke.
  - unfold params2. destruct args as [|self [|name [|c rest]]]; try reflexivity.
    rewrite !init_run. destruct self; try reflexivity.
    cbn [with_constants heap]. destruct (heap st !! l); reflexivity.
  - unfold params3. destruct args as [|self [|x [|y [|c rest]]]]; reflexivity.
  - unfold params2. destruct args as [|a [|b [|c rest]]]; try reflexivity.
    rewrite !multiply_run. reflexivity.
  - destruct args; [|reflexivity]. rewrite !main_run. reflexivity.
Qed.

(** * The statements of the specification *)

(** The float that holds 2^27 + 1 exactly is squared to 2^54 + 2^28: the
    last bit of the exact square 2^54 + 2^28 + 1 does not fit in 53 bits. *)
Lemma square_rounds (st : state) :
  Calculator.multiply (VFloat (Float64.of_Z 134217729)) (VFloat (Float64.of_Z 134217729)) st
  = (Ok (VFloat (Float64.of_Z 18014398777917440)), st).
Proof. rewrite multiply_run. reflexivity. Qed.

(** C1, as stated, fails on floats: [multiply(134217729.0, 134217729.0)]
    returns 18014398777917440.0, and the arithmetic product of the two
    arguments is 18014398777917441. *)
Lemma multiply_inexact_product :
  is_number (VFloat (Float64.of_Z 134217729)) = true /\
  exact_value (VFloat (Float64.of_Z 134217729)) = Some (134217729 # 1)%Q /\
  exists r : value,
    Calculator.multiply (VFloat (Float64.of_Z 134217729))
                        (VFloat (Float64.of_Z 134217729)) initial_state
    = (Ok r, initial_state) /\
    exact_value r = Some (18014398777917440 # 1)%Q /\
    ~ ((18014398777917440 # 1) == (134217729 # 1) * (134217729 # 1))%Q.
Proof.
  split; [reflexivity | split; [reflexivity | ]].
  eexists. split; [apply square_rounds | split; [reflexivity | ]].
  intros H. vm_compute in H. discriminate H.
Qed.

(** C1 (amended).  [add] returns the exact sum of two integers and
    [multiply] the exact product of two integers; on two floats
    [multiply] returns their binary64 product, the arithmetic product
    rounded to the nearest float; an [int] next to a [float] is converted
    to [float] first, which raises OverflowError when it is too large. *)
Theorem add_multiply_results (self : value) (x y : Z) (f g : spec_float) (st : state) :
  Calculator.add self (VInt x) (VInt y) st = (Ok (VInt (x + y)), st) /\
  Calculator.multiply (VInt x) (VInt y) st = (Ok (VInt (x * y)), st) /\
  Calculator.multiply (VFloat f) (VFloat g) st = (Ok (VFloat (Float64.mul f g)), st) /\
  Calculator.multiply (VInt x) (VFloat g) st
    = (h ← to_float x; Ok (VFloat (Float64.mul h g)), st) /\
  Calculator.multiply (VFloat f) (VInt y) st
    = (h ← to_float y; Ok (VFloat (Float64.mul f h)), st).
Proof.
  rewrite !multiply_run. repeat split; reflexivity.
Qed.

(** C2.  From every state [main] runs to a normal return: no operation
    in it raises.  In particular the power, the floor division, the sum
    of the list, the complex sum and the two f-strings are defined on
    the arguments [main] gives them; and the file run as a script ends
    normally as well. *)
Theorem main_no_error (st : state) :
  (exists v st', main st = (Ok v, st')) /\
  binop_pow (VInt 10) (VInt 2) = Ok (VInt 100) /\
  binop_floordiv (VInt 100) (VInt 3) = Ok (VInt 33) /\
  builtins.sum (VList [VInt 1; VInt 2; VInt 3; VInt 4; VInt 5]) = Ok (VInt 15) /\
  binop_add (VInt 3) (VComplex Float64.zero (Float64.of_Z 4))
    = Ok (VComplex (Float64.of_Z 3) (Float64.of_Z 4)) /\
  fstring [FText "The result is: "; FExpr (VInt 8)] = Ok "The result is: 8" /\
  fstring [FText "Total: "; FExpr (VInt 15)] = Ok "Total: 15" /\
  (exists st', module_body "__main__" st = (Ok tt, st')).
Proof.
  split; [rewrite main_run; eauto | ].
  do 6 (split; [reflexivity | ]).
  destruct (module_run st) as [st' [H _]]. eauto.
Qed.

(** C3.  [Calculator(name)] returns a new object, at an address that was
    free, whose [name] is the given string and whose [value] is the
    integer 0. *)
Theorem constructor_fields (name : string) (st : state) :
  exists (l : loc) (st' : state) (d : gmap string value),
    Calculator_new [VStr name] st = (Ok (VRef l), st') /\
    heap st !! l = None /\
    heap st' !! l = Some d /\
    d !! "name" = Some (VStr name) /\
    d !! "value" = Some (VInt 0).
Proof.
  exists (fresh_loc (heap st)). eexists. exists (calculator_dict (VStr name)).
  split; [apply Calculator_new_run | ].
  split; [apply fresh_loc_free | ].
  split; [apply lookup_insert_eq | ].
  split; [apply calculator_dict_name | apply calculator_dict_value].
Qed.

(** The condition of the [if] for every integer [x] and every [y]: the
    comparison [x > 5] decides whether [y < 200] is evaluated at all. *)
Lemma condition_cases (x : Z) (y : value) (st : state) :
  Main.condition (VInt x) y st
  = if 5 <? x then (binop_lt y (VInt 200), st) else (Ok (VBool false), st).
Proof.
  unfold Main.condition, py_and, binop_gt. rewrite bind_lift.
  unfold binop_lt at 1. cbn [as_num truthy].
  destruct (5 <? x); reflexivity.
Qed.

(** C4.  When [main] returns, its variables hold the literals' values:
    the plain string, the f-string with the sum 8 formatted into it, the
    raw string with its two backslashes kept (13 characters), the five
    bytes of b"bytes", 42, the float nearest to 3.14, 255, 10, 493 and
    the complex number 3.0 + 4.0j.  The class stores [multiply] as a
    static method.  The condition of the [if] is true for the values of
    [x] and [y], and it is the boolean operator [and] of two
    comparisons: for every integer [x] and integer [y] it is the
    conjunction of [x > 5] and [y < 200], and for every [y] whatever it
    is False when [x <= 5], without [y < 200] being evaluated, and the
    outcome of [y < 200] when [x > 5]. *)
Theorem main_literals (st : state) :
  exists (fr : Main.locals) (st' : state),
    Main.body st = (Ok fr, st') /\
    Main.message fr = VStr "Hello, World!" /\
    Main.formatted fr = VStr "The result is: 8" /\
    Main.raw_string fr = VStr "C:\Users\path" /\
    String.length "C:\Users\path" = 13%nat /\
    Main.byte_string fr = VBytes [x62; x79; x74; x65; x73]%byte /\
    Main.decimal fr = VInt 42 /\
    Main.floating fr = VFloat (S754_finite false 7070651414971679 (-51)) /\
    Main.floating fr = VFloat (Float64.of_decimal 314 2) /\
    Main.hex_num fr = VInt 255 /\
    Main.binary fr = VInt 10 /\
    Main.octal fr = VInt 493 /\
    Main.complex_num fr = VComplex (Float64.of_Z 3) (Float64.of_Z 4) /\
    lookup_method Calculator_methods "multiply"
      = Some (StaticMethod (params2 Calculator.multiply)) /\
    Main.condition (Main.x fr) (Main.y fr) st' = (Ok (VBool true), st') /\
    (forall (x y : Z) (s : state),
       Main.condition (VInt x) (VInt y) s = (Ok (VBool ((5 <? x) && (y <? 200))), s)) /\
    (forall (x : Z) (y : value) (s : state),
       Main.condition (VInt x) y s
       = if 5 <? x then (binop_lt y (VInt 200), s) else (Ok (VBool false), s)).
Proof.
  exists (main_locals (fresh_loc (heap st))), (after_main st).
  split; [apply body_run | ].
  do 14 (split; [reflexivity | ]).
  split; [ | apply condition_cases].
  intros x y s. rewrite condition_cases.
  destruct (5 <? x); reflexivity.
Qed.

(** C6.  The result of every function of the file is the same under any
    two values of DEBUG and MAX_SIZE: the same outcome, the same heap and
    the same output. *)
Theorem constants_do_not_influence
  (f : function) (args : list value) (d1 m1 d2 m2 : value) (st : state) :
  fst (invoke f args (with_constants d1 m1 st))
    = fst (invoke f args (with_constants d2 m2 st)) /\
  heap (snd (invoke f args (with_constants d1 m1 st)))
    = heap (snd (invoke f args (with_constants d2 m2 st))) /\
  stdout (snd (invoke f args (with_constants d1 m1 st)))
    = stdout (snd (invoke f args (with_constants d2 m2 st))).
Proof.
  rewrite !invoke_constants. repeat split; reflexivity.
Qed.

(** C7.  Every call of [main] appends exactly the lines "Total: 15" and
    "Condition met" to standard output and returns a new calculator
    whose [name] is "MyCalc" and whose [value] is 0; the total is the sum
    15 of the list and the condition holds for x = 10, y = 100. *)
Theorem main_output_determined (st : state) :
  exists (l : loc) (st' : state) (d : gmap string value),
    main st = (Ok (VRef l), st') /\
    stdout st' = stdout st +:+ "Total: 15" +:+ newline +:+ "Condition met" +:+ newline /\
    heap st !! l = None /\
    heap st' !! l = Some d /\
    d !! "name" = Some (VStr "MyCalc") /\
    d !! "value" = Some (VInt 0) /\
    builtins.sum (VList [VInt 1; VInt 2; VInt 3; VInt 4; VInt 5]) = Ok (VInt 15) /\
    binop_pow (VInt 10) (VInt 2) = Ok (VInt 100) /\
    Main.condition (VInt 10) (VInt 100) st' = (Ok (VBool true), st').
Proof.
  exists (fresh_loc (heap st)), (after_main st), (calculator_dict (VStr "MyCalc")).
  split; [apply main_run | ].
  split; [reflexivity | ].
  split; [apply fresh_loc_free | ].
  split; [apply lookup_insert_eq | ].
  repeat split; reflexivity.
Qed.

(** C8.  After [Calculator(name)], any sequence of calls of [add] and
    [multiply] on the object, with any arguments, leaves the whole state
    as the constructor left it: the object still has [value] 0 and the
    [name] it was given. *)
Theorem calculator_invariant (name : string) (ops : list op) (st : state) :
  exists (l : loc) (st1 : state) (d : gmap string value),
    Calculator_new [VStr name] st = (Ok (VRef l), st1) /\
    run_ops (VRef l) ops st1 = st1 /\
    heap (run_ops (VRef l) ops st1) !! l = Some d /\
    d !! "name" = Some (VStr name) /\
    d !! "value" = Some (VInt 0).
Proof.
  exists (fresh_loc (heap st)). eexists. exists (calculator_dict (VStr name)).
  split; [apply Calculator_new_run | ].
  assert (Hops : forall s, run_ops (VRef (fresh_loc (heap st))) ops s = s).
  { induction ops as [|o rest IH]; intros s; [reflexivity | ].
    cbn [run_ops]. rewrite run_op_state. apply IH. }
  rewrite Hops.
  split; [reflexivity | ].
  split; [apply lookup_insert_eq | ].
  split; [apply calculator_dict_name | apply calculator_dict_value].
Qed.



(** * Further properties of the program *)

(** ** Objects *)

Lemma fresh_loc_insert_ne (h : gmap loc (gmap string value)) (d : gmap string value) :
  fresh_loc (<[fresh_loc h := d]> h) <> fresh_loc h.
Proof.
  intros E.
  pose proof (fresh_loc_free (<[fresh_loc h := d]> h)) as H.
  rewrite E, lookup_insert_eq in H. discriminate H.
Qed.

(** X1.  [Calculator(name)] adds exactly one object, at an address that
    was free, and changes nothing else: the objects that existed, the
    globals and the output are as before. *)
Theorem constructor_frame (name : value) (st : state) :
  exists (l : loc) (st' : state),
    Calculator_new [name] st = (Ok (VRef l), st') /\
    heap st !! l = None /\
    heap st' = <[l := calculator_dict name]> (heap st) /\
    size (heap st') = S (size (heap st)) /\
    globals st' = globals st /\
    stdout st' = stdout st.
Proof.
  exists (fresh_loc (heap st)). eexists.
  split; [apply Calculator_new_run | ].
  split; [apply fresh_loc_free | ].
  split; [reflexivity | ].
  split; [apply map_size_insert_None, fresh_loc_free | ].
  split; reflexivity.
Qed.

(** X2.  Two constructor calls give two different objects, each with the
    name it was given: the second call does not touch the first object. *)
Theorem two_calculators (a b : value) (st : state) :
  exists (l1 l2 : loc) (st1 st2 : state),
    Calculator_new [a] st = (Ok (VRef l1), st1) /\
    Calculator_new [b] st1 = (Ok (VRef l2), st2) /\
    l1 <> l2 /\
    heap st2 !! l1 = Some (calculator_dict a) /\
    heap st2 !! l2 = Some (calculator_dict b).
Proof.
  eexists _, _, _, _.
  split; [apply Calculator_new_run | ].
  split; [apply Calculator_new_run | ].
  cbn [with_heap heap].
  split; [apply not_eq_sym, fresh_loc_insert_ne | ].
  split; [ | apply lookup_insert_eq].
  rewrite lookup_insert_ne by apply fresh_loc_insert_ne.
  apply lookup_insert_eq.
Qed.

Lemma dict_overwrite (d : gmap string value) (n1 n2 : value) :
  <["value" := VInt 0]> (<["name" := n2]> (<["value" := VInt 0]> (<["name" := n1]> d)))
  = <["value" := VInt 0]> (<["name" := n2]> d).
Proof.
  apply map_eq. intros k. rewrite !lookup_insert.
  repeat case_decide; reflexivity.
Qed.

(** X3.  Initialising an object again overwrites the first
    initialisation: [__init__(self, n1)] followed by [__init__(self, n2)]
    leaves the state of [__init__(self, n2)] alone.  In particular
    [__init__] is idempotent. *)
Theorem init_last_wins (l : loc) (d : gmap string value) (n1 n2 : value) (st : state)
  (Hl : heap st !! l = Some d) :
  (Calculator.__init__ (VRef l) n1;; Calculator.__init__ (VRef l) n2) st
  = Calculator.__init__ (VRef l) n2 st /\
  fst (Calculator.__init__ (VRef l) n2 st) = Ok VNone.
Proof.
  unfold mbind, M_bind. rewrite !init_run, Hl.
  rewrite init_run. unfold with_heap. cbn [heap globals stdout fst].
  rewrite lookup_insert_eq, insert_insert_eq, dict_overwrite.
  split; reflexivity.
Qed.

(** X3 on the calculator that [main] leaves in an empty heap. *)
Lemma init_last_wins_witness :
  heap (snd (main initial_state)) !! 1%positive = Some (calculator_dict (VStr "MyCalc")) /\
  (Calculator.__init__ (VRef 1%positive) (VStr "a");;
   Calculator.__init__ (VRef 1%positive) (VStr "b")) (snd (main initial_state))
  = Calculator.__init__ (VRef 1%positive) (VStr "b") (snd (main initial_state)) /\
  fst (Calculator.__init__ (VRef 1%positive) (VStr "b") (snd (main initial_state))) = Ok VNone.
Proof.
  split; [reflexivity | ].
  apply (init_last_wins 1%positive (calculator_dict (VStr "MyCalc"))
           (VStr "a") (VStr "b") (snd (main initial_state))).
  reflexivity.
Defined.

(** X4.  [__init__] writes the attributes [name] and [value] and no
    other: an attribute of another name that the object had keeps its
    value, and so does every other object. *)
Theorem init_keeps_other_attributes
  (l l' : loc) (d d' : gmap string value) (attr : string) (name : value) (st : state)
  (Hl : heap st !! l = Some d) (Hl' : heap st !! l' = Some d') (Hne : l' <> l)
  (Hname : attr <> "name") (Hvalue : attr <> "value") :
  exists (st' : state) (e : gmap string value),
    Calculator.__init__ (VRef l) name st = (Ok VNone, st') /\
    heap st' !! l = Some e /\
    e !! "name" = Some name /\
    e !! "value" = Some (VInt 0) /\
    e !! attr = d !! attr /\
    heap st' !! l' = Some d'.
Proof.
  rewrite init_run, Hl. eexists _, _.
  split; [reflexivity | ]. cbn [with_heap heap].
  split; [apply lookup_insert_eq | ].
  split; [now rewrite lookup_insert_ne, lookup_insert_eq | ].
  split; [apply lookup_insert_eq | ].
  split.
  - rewrite !lookup_insert_ne by congruence. reflexivity.
  - rewrite lookup_insert_ne by congruence. exact Hl'.
Qed.

(** X4 on the two calculators that two calls of [main] leave in an
    empty heap: initialising the first again leaves the second alone. *)
Lemma init_keeps_other_attributes_witness :
  heap (snd (main (snd (main initial_state)))) !! 1%positive
    = Some (calculator_dict (VStr "MyCalc")) /\
  heap (snd (main (snd (main initial_state)))) !! 2%positive
    = Some (calculator_dict (VStr "MyCalc")) /\
  exists (st' : state) (e : gmap string value),
    Calculator.__init__ (VRef 1%positive) (VStr "c") (snd (main (snd (main initial_state))))
      = (Ok VNone, st') /\
    heap st' !! 1%positive = Some e /\
    e !! "name" = Some (VStr "c") /\
    e !! "value" = Some (VInt 0) /\
    e !! "memo" = calculator_dict (VStr "MyCalc") !! "memo" /\
    heap st' !! 2%positive = Some (calculator_dict (VStr "MyCalc")).
Proof.
  split; [reflexivity | split; [reflexivity | ]].
  apply (init_keeps_other_attributes 1%positive 2%positive
           (calculator_dict (VStr "MyCalc")) (calculator_dict (VStr "MyCalc"))
           "memo" (VStr "c") (snd (main (snd (main initial_state)))));
    [reflexivity | reflexivity | discriminate | discriminate | discriminate].
Defined.

(** ** Method calls on an instance *)

(** X5.  On the object [Calculator(name)] returns, [add] is called with
    the object bound to [self] and [multiply], a static method, without
    it: each takes exactly two arguments, and a call with any other
    number of arguments is a TypeError that leaves the state as it was. *)
Theorem method_call_binding (name : value) (args : list value) (st : state) :
  exists (l : loc) (st1 : state),
    Calculator_new [name] st = (Ok (VRef l), st1) /\
    call_method (VRef l) "add" args st1
    = match args with
      | [x; y] => Calculator.add (VRef l) x y st1
      | _ => (Raise TypeError, st1)
      end /\
    call_method (VRef l) "multiply" args st1
    = match args with
      | [a; b] => Calculator.multiply a b st1
      | _ => (Raise TypeError, st1)
      end.
Proof.
  eexists _, _. split; [apply Calculator_new_run | ].
  unfold call_method, with_heap. cbn [heap].
  rewrite lookup_insert_eq.
  change (calculator_dict name !! "add") with (@None value).
  change (calculator_dict name !! "multiply") with (@None value).
  rewrite lookup_add, lookup_multiply.
  split; destruct args as [|x [|y [|z rest]]]; reflexivity.
Qed.

(** X6.  The constructor takes exactly one argument: with one it returns
    the new object, with any other number it raises TypeError. *)
Theorem constructor_arity (args : list value) (st : state) :
  fst (Calculator_new args st)
  = if (length args =? 1)%nat then Ok (VRef (fresh_loc (heap st))) else Raise TypeError.
Proof.
  destruct args as [|a [|b rest]]; [reflexivity | | reflexivity].
  rewrite Calculator_new_run. reflexivity.
Qed.

(** ** add and multiply *)

(** X7.  [add] is associative on integers, on strings, on byte strings
    and on lists: adding in either grouping gives the same result. *)
Theorem add_associative (self : value) (a b c : Z) (s t u : string)
  (p q r : list Byte.byte) (i j k : list value) (st : state) :
  (v ← Calculator.add self (VInt a) (VInt b); Calculator.add self v (VInt c)) st
  = (w ← Calculator.add self (VInt b) (VInt c); Calculator.add self (VInt a) w) st /\
  (v ← Calculator.add self (VStr s) (VStr t); Calculator.add self v (VStr u)) st
  = (w ← Calculator.add self (VStr t) (VStr u); Calculator.add self (VStr s) w) st /\
  (v ← Calculator.add self (VBytes p) (VBytes q); Calculator.add self v (VBytes r)) st
  = (w ← Calculator.add self (VBytes q) (VBytes r); Calculator.add self (VBytes p) w) st /\
  (v ← Calculator.add self (VList i) (VList j); Calculator.add self v (VList k)) st
  = (w ← Calculator.add self (VList j) (VList k); Calculator.add self (VList i) w) st.
Proof.
  unfold Calculator.add. rewrite !bind_lift. cbn.
  rewrite Z.add_assoc, append_assoc, <- !app_assoc.
  repeat split; reflexivity.
Qed.

(** X8.  On integers [multiply] is associative and distributes over
    [add]. *)
Theorem multiply_distributes (self : value) (a b c : Z) (st : state) :
  (v ← Calculator.multiply (VInt a) (VInt b); Calculator.multiply v (VInt c)) st
  = (w ← Calculator.multiply (VInt b) (VInt c); Calculator.multiply (VInt a) w) st /\
  (v ← Calculator.add self (VInt b) (VInt c); Calculator.multiply (VInt a) v) st
  = (p ← Calculator.multiply (VInt a) (VInt b);
     q ← Calculator.multiply (VInt a) (VInt c);
     Calculator.add self p q) st.
Proof.
  unfold mbind, M_bind, Calculator.add. rewrite !multiply_run.
  unfold lift, binop_mul, binop_add. cbn [as_num]. rewrite !multiply_run.
  unfold binop_mul. cbn [as_num].
  split; do 3 f_equal; ring.
Qed.

(** X9.  [add] and [multiply] raise nothing but TypeError, for operands
    that do not go together, and OverflowError, for an integer too large
    to become a float. *)
Theorem arithmetic_raises (self x y : value) (e : exn) (st : state)
  (H : fst (Calculator.add self x y st) = Raise e \/
       fst (Calculator.multiply x y st) = Raise e) :
  e = TypeError \/ e = OverflowError.
Proof.
  rewrite multiply_run in H. unfold Calculator.add, lift in H. cbn [fst] in H.
  destruct H as [H|H].
  - destruct x, y; cbn in H; unfold to_float in H;
      repeat match type of H with
             | context [Float64.of_Z ?n] => destruct (Float64.of_Z n)
             end; cbn in H; try discriminate H; injection H as <-; auto.
  - destruct x, y; cbn in H; unfold to_float in H;
      repeat match type of H with
             | context [Float64.of_Z ?n] => destruct (Float64.of_Z n)
             end; cbn in H; try discriminate H; injection H as <-; auto.
Qed.

(** The exceptions of X9 at [add(1, "a")]. *)
Lemma arithmetic_raises_witness :
  (fst (Calculator.add VNone (VInt 1) (VStr "a") initial_state) = Raise TypeError \/
   fst (Calculator.multiply (VInt 1) (VStr "a") initial_state) = Raise TypeError) /\
  (TypeError = TypeError \/ TypeError = OverflowError).
Proof.
  split; [left; reflexivity | ].
  apply (arithmetic_raises VNone (VInt 1) (VStr "a") TypeError initial_state).
  left; reflexivity.
Defined.

(** ** sum *)

Lemma sum_from_ints (a : Z) (l : list Z) :
  builtins.sum_from (VInt a) (map VInt l) = Ok (VInt (a + fold_right Z.add 0 l)).
Proof.
  revert a. induction l as [|n l IH]; intros a; cbn [map fold_right builtins.sum_from].
  - now rewrite Z.add_0_r.
  - cbn. rewrite IH. now rewrite Z.add_assoc.
Qed.

Lemma sum_app (l1 l2 : list Z) :
  fold_right Z.add 0 (l1 ++ l2) = fold_right Z.add 0 l1 + fold_right Z.add 0 l2.
Proof.
  induction l1 as [|n l1 IH]; cbn [app fold_right]; [reflexivity | ].
  rewrite IH. ring.
Qed.

(** X10.  [sum] of a list of integers is their sum, 0 for the empty
    list; it never raises on such a list, and the sum of a concatenation
    is the sum of the sums. *)
Theorem sum_of_integers (l1 l2 : list Z) :
  builtins.sum (VList []) = Ok (VInt 0) /\
  builtins.sum (VList (map VInt l1)) = Ok (VInt (fold_right Z.add 0 l1)) /\
  builtins.sum (VList (map VInt (l1 ++ l2)))
  = (a ← builtins.sum (VList (map VInt l1));
     b ← builtins.sum (VList (map VInt l2));
     binop_add a b).
Proof.
  unfold builtins.sum. cbn [builtins.iterate mbind outcome_bind obind].
  rewrite !sum_from_ints. cbn [obind binop_add as_num].
  rewrite sum_app, !Z.add_0_l.
  repeat split; reflexivity.
Qed.

(** ** main and the module *)

(** X11.  [main] adds its calculator and nothing else to the heap: the
    objects that existed are as before, the heap has one object more, and
    the globals are untouched. *)
Theorem main_frame (st : state) :
  exists (l : loc) (st' : state),
    main st = (Ok (VRef l), st') /\
    heap st !! l = None /\
    heap st' = <[l := calculator_dict (VStr "MyCalc")]> (heap st) /\
    size (heap st') = S (size (heap st)) /\
    globals st' = globals st.
Proof.
  exists (fresh_loc (heap st)), (after_main st).
  split; [apply main_run | ].
  split; [apply fresh_loc_free | ].
  split; [reflexivity | ].
  split; [apply map_size_insert_None, fresh_loc_free | reflexivity].
Qed.

(** X12.  Two calls of [main] in a row print the two lines twice and
    return two different calculators, both still named "MyCalc" with
    value 0 after the second call. *)
Theorem main_twice (st : state) :
  exists (l1 l2 : loc) (st1 st2 : state),
    main st = (Ok (VRef l1), st1) /\
    main st1 = (Ok (VRef l2), st2) /\
    (main;; main) st = (Ok (VRef l2), st2) /\
    l1 <> l2 /\
    stdout st2 = stdout st +:+ main_output +:+ main_output /\
    heap st2 !! l1 = Some (calculator_dict (VStr "MyCalc")) /\
    heap st2 !! l2 = Some (calculator_dict (VStr "MyCalc")).
Proof.
  eexists _, _, _, _.
  split; [apply main_run | ].
  split; [apply main_run | ].
  split; [unfold mbind, M_bind; rewrite main_run; apply main_run | ].
  unfold after_main. cbn [heap stdout].
  split; [apply not_eq_sym, fresh_loc_insert_ne | ].
  split; [apply append_assoc | ].
  split; [ | apply lookup_insert_eq].
  rewrite lookup_insert_ne by apply fresh_loc_insert_ne.
  apply lookup_insert_eq.
Qed.

Lemma append_empty_r (s : string) : s +:+ "" = s.
Proof.
  induction s as [|c s IH]; [reflexivity | ].
  change (String c (s +:+ "") = String c s). now rewrite IH.
Qed.

(** X13.  Running the file binds DEBUG to True and MAX_SIZE to 100
    whatever they were bound to before, and calls [main] only under the
    module name "__main__": run as a script the file prints the two
    lines of [main] and creates its calculator; imported under any other
    name it prints nothing and creates no object. *)
Theorem module_guard (name : string) (st : state) :
  exists st' : state,
    module_body name st = (Ok tt, st') /\
    globals st' !! "DEBUG" = Some (VBool true) /\
    globals st' !! "MAX_SIZE" = Some (VInt 100) /\
    stdout st' = stdout st +:+ (if String.eqb name "__main__" then main_output else "") /\
    heap st' = (if String.eqb name "__main__"
                then <[fresh_loc (heap st) := calculator_dict (VStr "MyCalc")]> (heap st)
                else heap st).
Proof.
  unfold module_body.
  repeat (unfold mbind at 1, M_bind at 1; unfold set_global at 1; cbv beta iota).
  assert (Hg : forall g : gmap string value,
    let g' := <["main" := VOpaque "main"]>
                (<["Calculator" := VOpaque "Calculator"]>
                   (<["MAX_SIZE" := VInt 100]> (<["DEBUG" := VBool true]> g))) in
    g' !! "DEBUG" = Some (VBool true) /\ g' !! "MAX_SIZE" = Some (VInt 100)).
  { intros g g'. unfold g'. split.
    - do 3 (rewrite lookup_insert_ne by discriminate). apply lookup_insert_eq.
    - do 2 (rewrite lookup_insert_ne by discriminate). apply lookup_insert_eq. }
  destruct (String.eqb name "__main__").
  - unfold mbind, M_bind. rewrite main_run. eexists.
    split; [reflexivity | ]. unfold after_main. cbn [heap globals stdout].
    split; [apply Hg | ]. split; [apply Hg | ]. split; reflexivity.
  - eexists. split; [reflexivity | ]. cbn [heap globals stdout].
    rewrite append_empty_r.
    split; [apply Hg | ]. split; [apply Hg | ]. split; reflexivity.
Qed.

(** ** Integers as floats *)

Lemma digits2_bounds (p : positive) :
  2 ^ (Z.pos (digits2_pos p) - 1) <= Z.pos p < 2 ^ Z.pos (digits2_pos p).
Proof.
  induction p as [p IH|p IH|]; cbn [digits2_pos]; [ | | cbn; lia];
    rewrite Pos2Z.inj_succ;
    replace (Z.succ (Z.pos (digits2_pos p)) - 1) with (Z.succ (Z.pos (digits2_pos p) - 1)) by lia;
    rewrite !Z.pow_succ_r by lia; lia.
Qed.

Lemma iter_xO_pow2 (p k : positive) :
  Z.pos (Pos.iter xO p k) = Z.pos p * 2 ^ Z.pos k.
Proof.
  induction k as [|k IH] using Pos.peano_ind.
  - cbn. lia.
  - rewrite Pos.iter_succ, Pos2Z.inj_succ, Z.pow_succ_r by lia.
    rewrite Pos2Z.inj_xO, IH. ring.
Qed.

(** Rounding a mantissa that is already canonical changes nothing. *)
Lemma round_canonical (s : bool) (m : positive) (e : Z) :
  canonical_mantissa Float64.prec Float64.emax m e = true ->
  (e <=? Float64.emax - Float64.prec) = true ->
  binary_round_aux Float64.prec Float64.emax s (Z.pos m) e loc_Exact = S754_finite s m e.
Proof.
  intros Hc Hb. unfold canonical_mantissa in Hc. apply Z.eqb_eq in Hc.
  unfold binary_round_aux, shr_fexp. cbn [Zdigits2].
  rewrite Hc, Z.sub_diag. cbn [shr shr_record_of_loc shr_m loc_of_shr_record round_nearest_even].
  cbn [Zdigits2]. rewrite Hc, Z.sub_diag. cbn [shr shr_m].
  rewrite Hb. reflexivity.
Qed.

(** A positive integer below 2^53 is a float as it stands: its bits,
    shifted left to fill the 53-bit mantissa. *)
Lemma binary_round_small (s : bool) (p : positive) :
  Z.pos p < 2 ^ 53 ->
  exists (m : positive) (k : Z),
    binary_round Float64.prec Float64.emax s p 0 = S754_finite s m (- k) /\
    Float64.valid (S754_finite s m (- k)) = true /\
    0 <= k /\ Z.pos m = Z.pos p * 2 ^ k.
Proof.
  intros Hp.
  pose proof (digits2_bounds p) as [Hlo Hhi].
  assert (Hd : Z.pos (digits2_pos p) <= 53).
  { destruct (Z_le_gt_dec (Z.pos (digits2_pos p)) 53) as [|Hgt]; [assumption | exfalso].
    assert (2 ^ 53 <= 2 ^ (Z.pos (digits2_pos p) - 1)) by (apply Z.pow_le_mono_r; lia).
    lia. }
  unfold binary_round, shl_align.
  assert (Hf : fexp Float64.prec Float64.emax (Z.pos (digits2_pos p) + 0)
               = Z.pos (digits2_pos p) - 53).
  { unfold fexp, emin, Float64.prec, Float64.emax. lia. }
  rewrite Hf.
  destruct (Z.pos (digits2_pos p) - 53 - 0) as [|k|k] eqn:Hk; [ | lia | ].
  - exists p, 0. rewrite round_canonical.
    + split; [reflexivity | ]. split; [ | lia].
      unfold Float64.valid, valid_binary, bounded, canonical_mantissa.
      apply andb_true_intro. split; [apply Z.eqb_eq | reflexivity].
      unfold fexp, emin, Float64.prec, Float64.emax. cbn [Z.opp]. lia.
    + unfold canonical_mantissa. apply Z.eqb_eq.
      unfold fexp, emin, Float64.prec, Float64.emax. lia.
    + reflexivity.
  - exists (Pos.iter xO p k), (Z.pos k).
    assert (He : Z.pos (digits2_pos p) - 53 = - Z.pos k) by lia.
    rewrite He.
    assert (Hc : canonical_mantissa Float64.prec Float64.emax (Pos.iter xO p k) (- Z.pos k) = true).
    { unfold canonical_mantissa. apply Z.eqb_eq. rewrite digits2_shift.
      unfold fexp, emin, Float64.prec, Float64.emax. lia. }
    assert (Hb : (- Z.pos k <=? Float64.emax - Float64.prec) = true).
    { apply Z.leb_le. unfold Float64.prec, Float64.emax. lia. }
    rewrite round_canonical by assumption.
    split; [reflexivity | ]. split; [ | split; [lia | apply iter_xO_pow2]].
    unfold Float64.valid, valid_binary, bounded. now rewrite Hc, Hb.
Qed.

Lemma scaled_exact (z k : Z) :
  0 <= k -> (inject_Z (z * 2 ^ k) * Qpower 2 (- k) == inject_Z z)%Q.
Proof.
  intros Hk. rewrite inject_Z_mult, Zpower_Qpower by assumption.
  rewrite Qpower_opp. change (inject_Z 2) with 2%Q.
  field. apply Qpower_not_0. discriminate.
Qed.

(** Conversion of an integer below 2^53 in absolute value: it succeeds,
    and the float stands for the integer itself. *)
Lemma to_float_small (n : Z) :
  Z.abs n < 2 ^ 53 ->
  exists (f : spec_float) (q : Q),
    to_float n = Ok f /\ Float64.valid f = true /\
    Float64.exact f = Some q /\ (q == inject_Z n)%Q.
Proof.
  intros Hn. unfold to_float, Float64.of_Z, binary_normalize.
  destruct n as [|p|p].
  - exists (S754_zero false), 0%Q. repeat split; reflexivity.
  - destruct (binary_round_small false p) as (m & k & -> & Hv & Hk & Hm); [lia | ].
    eexists _, _. split; [reflexivity | ]. split; [exact Hv | ].
    split; [reflexivity | ]. rewrite Qred_correct, Hm. now apply scaled_exact.
  - destruct (binary_round_small true p) as (m & k & -> & Hv & Hk & Hm); [lia | ].
    eexists _, _. split; [reflexivity | ]. split; [exact Hv | ].
    split; [reflexivity | ]. rewrite Qred_correct.
    change (Z.neg m) with (- Z.pos m). rewrite Hm.
    replace (- (Z.pos p * 2 ^ k)) with (Z.neg p * 2 ^ k) by lia.
    now apply scaled_exact.
Qed.

(** X14.  An integer below 2^53 in absolute value loses nothing when
    [multiply] meets it with a float: [multiply(n, 1.0)] and
    [multiply(1.0, n)] return the float that stands for [n] exactly. *)
Theorem multiply_small_integer (n : Z) (st : state) (Hn : Z.abs n < 2 ^ 53) :
  exists (f : spec_float) (q : Q),
    Calculator.multiply (VInt n) (VFloat (Float64.of_Z 1)) st = (Ok (VFloat f), st) /\
    Calculator.multiply (VFloat (Float64.of_Z 1)) (VInt n) st = (Ok (VFloat f), st) /\
    exact_value (VFloat f) = Some q /\
    (q == inject_Z n)%Q.
Proof.
  destruct (to_float_small n Hn) as (f & q & Hf & Hv & Hq & Hqn).
  exists f, q. rewrite !multiply_run. unfold binop_mul. cbn [as_num].
  rewrite Hf. cbn [obind].
  rewrite (float_mul_comm (Float64.of_Z 1) f), float_mul_one by exact Hv.
  repeat split; assumption.
Qed.

(** X14 at the integer 42. *)
Lemma multiply_small_integer_witness :
  Z.abs 42 < 2 ^ 53 /\
  exists (f : spec_float) (q : Q),
    Calculator.multiply (VInt 42) (VFloat (Float64.of_Z 1)) initial_state
      = (Ok (VFloat f), initial_state) /\
    Calculator.multiply (VFloat (Float64.of_Z 1)) (VInt 42) initial_state
      = (Ok (VFloat f), initial_state) /\
    exact_value (VFloat f) = Some q /\
    (q == inject_Z 42)%Q.
Proof.
  split; [reflexivity | ].
  apply (multiply_small_integer 42 initial_state). reflexivity.
Defined.

Lemma shr_1_half (r : shr_record) :
  0 <= shr_m r -> shr_m (shr_1 r) = shr_m r / 2.
Proof.
  destruct r as [m b s]. cbn [shr_m]. intros Hm.
  destruct m as [|[p|p|]|p]; cbn [shr_1 shr_m]; [reflexivity | | | reflexivity | lia].
  - apply Z.div_unique with (r := 1); lia.
  - apply Z.div_unique with (r := 0); lia.
Qed.

(** Shifting [k] bits out of a mantissa divides it by 2^k. *)
Lemma shr_iter_div (k : positive) (r : shr_record) :
  0 <= shr_m r -> shr_m (SpecFloat.iter_pos shr_1 k r) = shr_m r / 2 ^ Z.pos k.
Proof.
  revert r. induction k as [k IH|k IH|]; intros r Hr; cbn [SpecFloat.iter_pos].
  - assert (H1 : 0 <= shr_m (shr_1 r)) by (rewrite shr_1_half by assumption; apply Z.div_pos; lia).
    assert (H2 : 0 <= shr_m (SpecFloat.iter_pos shr_1 k (shr_1 r)))
      by (rewrite IH by assumption; apply Z.div_pos; lia).
    rewrite IH, IH, shr_1_half by assumption.
    rewrite !Z.div_div by lia. f_equal.
    replace (Z.pos k~1) with (1 + (Z.pos k + Z.pos k)) by lia.
    rewrite !Z.pow_add_r by lia. change (2 ^ 1) with 2. ring.
  - assert (H2 : 0 <= shr_m (SpecFloat.iter_pos shr_1 k r))
      by (rewrite IH by assumption; apply Z.div_pos; lia).
    rewrite IH, IH by assumption.
    rewrite !Z.div_div by lia. f_equal.
    replace (Z.pos k~0) with (Z.pos k + Z.pos k) by lia.
    now rewrite Z.pow_add_r by lia.
  - rewrite shr_1_half by assumption. reflexivity.
Qed.

Lemma round_nearest_even_bounds (m : Z) (l : location) :
  m <= round_nearest_even m l <= m + 1.
Proof.
  destruct l as [|[| |]]; cbn [round_nearest_even]; try lia.
  destruct (Z.even m); lia.
Qed.

(** An integer of 2^1024 or more is beyond every float. *)
Lemma binary_round_big (s : bool) (p : positive) :
  2 ^ 1024 <= Z.pos p ->
  binary_round Float64.prec Float64.emax s p 0 = S754_infinity s.
Proof.
  intros Hp.
  pose proof (digits2_bounds p) as [Hlo Hhi].
  set (d := Z.pos (digits2_pos p)) in *.
  assert (Hd : 1025 <= d).
  { destruct (Z_le_gt_dec 1025 d) as [|Hgt]; [assumption | exfalso].
    assert (2 ^ d <= 2 ^ 1024) by (apply Z.pow_le_mono_r; lia). lia. }
  assert (Hf : forall x, 1 <= x -> fexp Float64.prec Float64.emax x = x - 53).
  { intros x Hx. unfold fexp, emin, Float64.prec, Float64.emax. lia. }
  unfold binary_round, shl_align. fold d. rewrite Hf by lia.
  destruct (d + 0 - 53 - 0) as [|k|k] eqn:Hk; [lia | | lia].
  unfold binary_round_aux. unfold shr_fexp at 1. cbn [Zdigits2]. fold d.
  rewrite Hf by lia. replace (d + 0 - 53 - 0) with (Z.pos k) by lia.
  cbn [shr shr_record_of_loc].
  set (r1 := SpecFloat.iter_pos shr_1 k _).
  assert (Hm1 : shr_m r1 = Z.pos p / 2 ^ Z.pos k)
    by (unfold r1; now rewrite shr_iter_div by (cbn; lia)).
  assert (Hpow : 2 ^ d = 2 ^ Z.pos k * 2 ^ 53)
    by (rewrite <- Z.pow_add_r by lia; f_equal; lia).
  assert (Hpow' : 2 ^ (d - 1) = 2 ^ Z.pos k * 2 ^ 52)
    by (rewrite <- Z.pow_add_r by lia; f_equal; lia).
  assert (Hb1 : 2 ^ 52 <= shr_m r1 < 2 ^ 53).
  { rewrite Hm1. split.
    - apply Z.div_le_lower_bound; lia.
    - apply Z.div_lt_upper_bound; lia. }
  pose proof (round_nearest_even_bounds (shr_m r1) (loc_of_shr_record r1)) as Hr.
  destruct (round_nearest_even (shr_m r1) (loc_of_shr_record r1)) as [|q|q] eqn:Hq; [lia | | lia].
  unfold shr_fexp. cbn [Zdigits2].
  pose proof (digits2_bounds q) as [Hqlo Hqhi].
  set (dq := Z.pos (digits2_pos q)) in *.
  assert (Hdq : dq = 53 \/ dq = 54).
  { assert (52 < dq).
    { destruct (Z_lt_le_dec 52 dq) as [|Hle]; [assumption | exfalso].
      assert (2 ^ dq <= 2 ^ 52) by (apply Z.pow_le_mono_r; lia). lia. }
    assert (dq - 1 <= 53).
    { destruct (Z_le_gt_dec (dq - 1) 53) as [|Hgt]; [assumption | exfalso].
      assert (2 ^ 54 <= 2 ^ (dq - 1)) by (apply Z.pow_le_mono_r; lia).
      assert (2 ^ 53 < 2 ^ 54) by (apply Z.pow_lt_mono_r; lia). lia. }
    lia. }
  rewrite Hf by lia.
  destruct Hdq as [Hdq|Hdq]; rewrite Hdq.
  - replace (53 + (0 + Z.pos k) - 53 - (0 + Z.pos k)) with 0 by lia.
    cbn [shr shr_record_of_loc shr_m].
    replace (0 + Z.pos k <=? Float64.emax - Float64.prec) with false; [reflexivity | ].
    symmetry. apply Z.leb_gt. unfold Float64.emax, Float64.prec. lia.
  - replace (54 + (0 + Z.pos k) - 53 - (0 + Z.pos k)) with 1 by lia.
    cbn [shr shr_record_of_loc SpecFloat.iter_pos].
    assert (Hq1 : 2 <= Z.pos q).
    { assert (2 ^ 1 <= 2 ^ (dq - 1)) by (apply Z.pow_le_mono_r; lia). lia. }
    destruct q as [q'|q'|]; [ | | lia]; cbn [shr_1 shr_m];
      (replace (0 + Z.pos k + 1 <=? Float64.emax - Float64.prec) with false; [reflexivity | ];
       symmetry; apply Z.leb_gt; unfold Float64.emax, Float64.prec; lia).
Qed.

Lemma to_float_big (n : Z) :
  2 ^ 1024 <= Z.abs n -> to_float n = Raise OverflowError.
Proof.
  intros Hn. unfold to_float, Float64.of_Z, binary_normalize.
  destruct n as [|p|p]; [cbn in Hn; lia | | ];
    rewrite binary_round_big by (cbn [Z.abs] in Hn; exact Hn); reflexivity.
Qed.

(** X15.  An integer of 2^1024 or more in absolute value cannot meet a
    float in [multiply]: the call raises OverflowError, whatever the
    float and on whichever side, and leaves the state as it was. *)
Theorem multiply_integer_overflow (n : Z) (g : spec_float) (st : state)
  (Hn : 2 ^ 1024 <= Z.abs n) :
  Calculator.multiply (VInt n) (VFloat g) st = (Raise OverflowError, st) /\
  Calculator.multiply (VFloat g) (VInt n) st = (Raise OverflowError, st).
Proof.
  rewrite !multiply_run. unfold binop_mul. cbn [as_num].
  rewrite to_float_big by exact Hn. split; reflexivity.
Qed.

(** X15 at the integer 2^1024 and the float 3.14. *)
Lemma multiply_integer_overflow_witness :
  2 ^ 1024 <= Z.abs (2 ^ 1024) /\
  Calculator.multiply (VInt (2 ^ 1024)) (VFloat (Float64.of_decimal 314 2)) initial_state
    = (Raise OverflowError, initial_state) /\
  Calculator.multiply (VFloat (Float64.of_decimal 314 2)) (VInt (2 ^ 1024)) initial_state
    = (Raise OverflowError, initial_state).
Proof.
  split; [vm_compute; discriminate | ].
  apply (multiply_integer_overflow (2 ^ 1024) (Float64.of_decimal 314 2) initial_state).
  vm_compute; discriminate.
Defined.

(** ** The condition of main *)

(** X16.  The condition [x > 5 and y < 200] tests its second comparison
    only when the first holds: for an integer [x] of at most 5 it is
    False whatever [y] is, even a value that cannot be compared with 200;
    for a larger [x] it is the outcome of [y < 200]. *)
Theorem condition_short_circuit (x : Z) (y : value) (st : state) :
  Main.condition (VInt x) y st
  = if 5 <? x then (binop_lt y (VInt 200), st) else (Ok (VBool false), st).
Proof.
  unfold Main.condition, py_and, binop_gt. rewrite bind_lift.
  unfold binop_lt at 1. cbn [as_num truthy].
  destruct (5 <? x); reflexivity.
Qed.

(** ** add on floats *)




(** ** Integers in f-strings *)

Lemma to_int_proper (n : Z) : Z.to_int n <> Decimal.Pos Decimal.Nil /\ Z.to_int n <> Decimal.Neg Decimal.Nil.
Proof.
  destruct n as [|p|p]; cbn; split; try discriminate.
  - intros H. injection H as H. revert H. apply DecimalPos.Unsigned.to_uint_nonnil.
  - intros H. injection H as H. revert H. apply DecimalPos.Unsigned.to_uint_nonnil.
Qed.

(** X19.  The text an f-string puts for an integer is its decimal
    numeral: read back as a number it is the integer, so two different
    integers never give the same text. *)
Theorem format_integer_roundtrip (n : Z) (s : string)
  (H : fstring [FExpr (VInt n)] = Ok s) :
  option_map Z.of_int (NilZero.int_of_string s) = Some n.
Proof.
  cbn [fstring py_str mbind outcome_bind obind] in H.
  destruct (String.length (string_of_Z (Z.abs n)) <=? 4300)%nat; [ | discriminate H].
  cbn [obind] in H. injection H as <-.
  rewrite append_empty_r. unfold string_of_Z.
  destruct (to_int_proper n) as [Hp Hn].
  rewrite NilZero.isi by assumption. cbn [option_map].
  now rewrite DecimalZ.of_to.
Qed.

(** X19 at the total of [main]. *)
Lemma format_integer_roundtrip_witness :
  fstring [FExpr (VInt 15)] = Ok "15" /\
  option_map Z.of_int (NilZero.int_of_string "15") = Some 15.
Proof.
  split; [reflexivity | ].
  apply (format_integer_roundtrip 15 "15"). reflexivity.
Defined.
